(** * PetWorld models assembly: a shallow embedding of
      [src/extensions/petworld/model.ts]

    The development follows the source file top to bottom: the state
    transform [StructureFromPetworld], the task [buildModelsAssembly], and
    the two table readers [createModelsAssemblies] and
    [createModelsAssembly].  JavaScript objects that the code mutates (the
    resolved model, the trajectory that carries the hidden
    [__modelsAssemblies] field) live in one explicit store, the trajectory,
    which is threaded through a small state-and-exception monad. *)

From Stdlib Require Import Ascii String ZArith.
From stdpp Require Import base option list gmap strings numbers.

Local Open Scope string_scope.
Local Open Scope list_scope.
Local Open Scope Z_scope.

(** ** JavaScript values used by the code *)

(** The strict equality [===] on two strings. *)
Definition strict_eq (a b : string) : bool := bool_decide (a = b).

(** [array[i]] for an integer [i] (model indices and row numbers are
    integers): [undefined] (here [None]) when [i] is negative or past the
    end. *)
Definition js_index {A : Type} (array : list A) (i : Z) : option A :=
  if i <? 0 then None else array !! Z.to_nat i.

(** Modelled from the spec: [arrayFind] of [mol-data/util] is not part of
    the sources at hand; it selects the first element that satisfies the
    predicate and yields [undefined] (here [None]) when there is none. *)
Fixpoint arrayFind {A : Type} (array : list A) (f : A → bool) : option A :=
  match array with
  | [] => None
  | x :: rest => if f x then Some x else arrayFind rest f
  end.

(** What a call can throw: an [Error] built by the code itself, or the
    [TypeError] of the runtime when a property of [undefined] is read or
    written. *)
Inductive Exn : Type :=
  | Error (message : string)
  | TypeError (property : string).

(** How a call completes. *)
Inductive Completion (A : Type) : Type :=
  | Return (value : A)
  | Throw (exn : Exn).
Arguments Return {A} value.
Arguments Throw {A} exn.

(** A CIF field, read by row: [str(row)] and [int(row)]. *)
Record CifField : Type := {
  str : Z → string;
  int : Z → Z
}.

(** A column of [mol-data/db].  Only a column that is backed by an array has
    the [__array] property; any other column (a CIF-backed one, say) is read
    through its row accessor. *)
Inductive Column (V : Type) : Type :=
  | ArrayColumn (__array : gmap Z V)
  | FieldColumn (rowCount : nat) (value : nat → V).
Arguments ArrayColumn {V} __array.
Arguments FieldColumn {V} rowCount value.

(** [column.toArray()]: rows [0 .. rowCount-1] of the column in a fresh
    array. *)
Definition Column_toArray {V : Type} (c : Column V) : gmap Z V :=
  match c with
  | ArrayColumn a => a
  | FieldColumn n value => map_seqZ 0 (value <$> seq 0 n)
  end.

(** Modelled from the spec: [Column.asArrayColumn] of [mol-data/db] is not
    part of the sources at hand; by its contract it hands back the column
    itself when that is already backed by an array and otherwise a new
    array-backed column with the same rows. *)
Definition Column_asArrayColumn {V : Type} (c : Column V) : Column V :=
  match c with
  | ArrayColumn a => ArrayColumn a
  | FieldColumn _ _ => ArrayColumn (Column_toArray c)
  end.

(** What a reader of the column sees at index [i]. *)
Definition Column_at {V : Type} (c : Column V) (i : Z) : option V :=
  Column_toArray c !! i.

(** ** The tables of the mmCIF data base *)

(** [Table<mmCIF_Schema['pdbx_struct_assembly']>]: [_rowCount] and the two
    columns the code reads with [value(i)]. *)
Record StructAssembly : Type := {
  asm_rowCount : nat;
  asm_id : nat → string;
  asm_details : nat → string
}.

(** [Table<mmCIF_Schema['pdbx_struct_assembly_gen']>]. *)
Record StructAssemblyGen : Type := {
  gen_rowCount : nat;
  assembly_id : nat → string;
  oper_expression : nat → string;
  asym_id_list : nat → list string
}.

(** [type Generator = { assemblyId, expression, asymIds }]. *)
Record Generator : Type := {
  assemblyId : string;
  expression : string;
  asymIds : list string
}.

(** Types of the libraries the file imports and only passes around:
    [Mat4], [SymmetryOperator], [StructureQuery] (the selector of an operator
    group), [Unit] (here [StructUnit]), the atomic hierarchy's data, the
    columns of the entity table the code does not touch, and the operator
    table. *)
Class LibraryTypes : Type := {
  Mat4 : Type;
  SymmetryOperator : Type;
  StructureQuery : Type;
  StructUnit : Type;
  AtomicData : Type;
  EntityColumns : Type;
  StructOperList : Type
}.

Section Petworld.
Context {T : LibraryTypes}.

(** [type Matrices = Map<string, Mat4>]. *)
Definition Matrices : Type := gmap string Mat4.

(** [Assembly.OperatorGroup]. *)
Record OperatorGroup : Type := {
  selector : StructureQuery;
  operators : list SymmetryOperator
}.

(** Modelled from the spec: [Assembly] of
    [mol-model/structure/model/properties/symmetry] is not part of the
    sources at hand.  An assembly has an id, details and the operator
    groups, "indexed by model index"; [Assembly.create] is handed the
    provider of the groups, and reading [operatorGroups] runs it (a failing
    provider makes the read throw). *)
Record Assembly : Type := {
  id : string;
  details : string;
  operatorsProvider : () → Completion (list OperatorGroup)
}.

Definition Assembly_create (id details : string)
    (provider : () → Completion (list OperatorGroup)) : Assembly :=
  {| id := id; details := details; operatorsProvider := provider |}.

Definition operatorGroups (a : Assembly) : Completion (list OperatorGroup) :=
  operatorsProvider a ().

(** [type ModelsAssembly = { assembly: Assembly, modelNums: number[] }]. *)
Record ModelsAssembly : Type := {
  assembly : Assembly;
  modelNums : list Z
}.

(** ** The model and the trajectory *)

(** [model.entities.data]: the description column, which the code patches,
    and all the other columns of the entity table. *)
Record EntityTable : Type := {
  pdbx_description : Column (list string);
  entity_columns : EntityColumns
}.

Record Entities : Type := {
  data : EntityTable;
  getEntityIndex : string → Z
}.

(** [model.atomicHierarchy]: the entity ids of the chains
    ([chains.label_entity_id.toArray()]) and the rest of the hierarchy. *)
Record AtomicHierarchy : Type := {
  chains_label_entity_id : list string;
  atomic_data : AtomicData
}.

(** [model.sourceData.data.db]: the three tables the code hands to
    [createModelsAssemblies]. *)
Record MmcifDatabase : Type := {
  pdbx_struct_assembly : StructAssembly;
  pdbx_struct_assembly_gen : StructAssemblyGen;
  pdbx_struct_oper_list : StructOperList
}.

(** [model.sourceData.data.frame]: the two fields the code fetches with
    [getField(...)!]. *)
Record CifFrame : Type := {
  pdbx_model_name : CifField;
  pdbx_struct_assembly_gen_PDB_model_num : CifField
}.

Record MmcifData : Type := {
  db : MmcifDatabase;
  frame : CifFrame
}.

(** [model.sourceData]: mmCIF or some other format. *)
Inductive ModelFormat : Type :=
  | MmcifFormat (data : MmcifData)
  | OtherFormat (kind : string).

Definition MmcifFormat_is (x : ModelFormat) : bool :=
  match x with MmcifFormat _ => true | OtherFormat _ => false end.

Record Model : Type := {
  label : string;
  entities : Entities;
  atomicHierarchy : AtomicHierarchy;
  sourceData : ModelFormat
}.

(** Modelled from the spec: [Trajectory] of [mol-model/structure] is not
    part of the sources at hand; it is an ordered sequence of models, and
    [getFrameAtIndex(i)] yields the frame at [i] ([undefined] outside the
    sequence).  Each frame is an object of its own, with its own entity
    table.  [__modelsAssemblies] is the hidden field the code adds to the
    trajectory ([None] while it is [undefined]). *)
Record Trajectory : Type := {
  frames : list Model;
  __modelsAssemblies : option (list ModelsAssembly)
}.

Definition getFrameAtIndex (trajectory : Trajectory) (i : Z) : option Model :=
  js_index (frames trajectory) i.

(** [Structure]: the list of its units. *)
Record Structure : Type := {
  units : list StructUnit
}.

(** ** The functions the file imports

    [getMatrices] and [operatorGroupsProvider] of
    [mol-model-formats/structure/property/assembly], [Structure.ofModel],
    [unit.applyOperator(id, operator)], [structure.model] and
    [Structure.elementDescription]; and [String.prototype.toLowerCase], the
    built-in of the language that line 83 calls on the stored id, which
    lowers every cased letter of a string. *)
Class LibraryImports : Type := {
  toLowerCase : string → string;
  getMatrices : StructOperList → Matrices;
  operatorGroupsProvider :
    list Generator → Matrices → () → Completion (list OperatorGroup);
  Structure_ofModel : Model → Structure;
  Unit_applyOperator : StructUnit → Z → SymmetryOperator → StructUnit;
  Structure_model : Structure → Model;
  Structure_elementDescription : Structure → string
}.
Context {I : LibraryImports}.

(** Modelled from the spec: [Structure.Builder] is not part of the sources
    at hand.  The assembler keeps the units added so far;
    [addWithOperator] appends the unit duplicated under the operator (the
    new unit's id is the number of units added before it) and
    [getStructure] returns the structure of the units added. *)
Definition StructureBuilder : Type := list StructUnit.
Definition Structure_Builder : StructureBuilder := [].
Definition addWithOperator (assembler : StructureBuilder)
    (unit : StructUnit) (oper : SymmetryOperator) : StructureBuilder :=
  assembler ++ [Unit_applyOperator unit (Z.of_nat (length assembler)) oper].
Definition getStructure (assembler : StructureBuilder) : Structure :=
  {| units := assembler |}.

(** ** [createModelsAssembly] (lines 125-146) *)

(** The loop over the generator rows, [i] running over [rows]: a row whose
    [assembly_id] is not [id] is skipped, any other row is appended to
    [generators] and its model number to [modelNums]. *)
Fixpoint collectGenerators (pdbx_struct_assembly_gen : StructAssemblyGen)
    (id : string) (PDB_model_num : CifField) (rows : list nat)
    (generators : list Generator) (modelNums : list Z)
  : list Generator * list Z :=
  match rows with
  | [] => (generators, modelNums)
  | i :: rest =>
      if negb (strict_eq (assembly_id pdbx_struct_assembly_gen i) id)
      then collectGenerators pdbx_struct_assembly_gen id PDB_model_num rest
             generators modelNums
      else collectGenerators pdbx_struct_assembly_gen id PDB_model_num rest
             (generators ++
                [{| assemblyId := id;
                    expression := oper_expression pdbx_struct_assembly_gen i;
                    asymIds := asym_id_list pdbx_struct_assembly_gen i |}])
             (modelNums ++ [int PDB_model_num (Z.of_nat i)])
  end.

Definition createModelsAssembly (pdbx_struct_assembly : StructAssembly)
    (pdbx_struct_assembly_gen : StructAssemblyGen) (index : nat)
    (matrices : Matrices) (PDB_model_num : CifField) : ModelsAssembly :=
  let id := asm_id pdbx_struct_assembly index in
  let details := asm_details pdbx_struct_assembly index in
  let '(generators, modelNums) :=
    collectGenerators pdbx_struct_assembly_gen id PDB_model_num
      (seq 0 (gen_rowCount pdbx_struct_assembly_gen)) [] [] in
  let assembly :=
    Assembly_create id details (operatorGroupsProvider generators matrices) in
  {| assembly := assembly; modelNums := modelNums |}.

(** ** [createModelsAssemblies] (lines 111-120) *)

Fixpoint createModelsAssemblies_loop (pdbx_struct_assembly : StructAssembly)
    (pdbx_struct_assembly_gen : StructAssemblyGen) (matrices : Matrices)
    (PDB_model_num : CifField) (rows : list nat)
    (assemblies : list ModelsAssembly) : list ModelsAssembly :=
  match rows with
  | [] => assemblies
  | i :: rest =>
      createModelsAssemblies_loop pdbx_struct_assembly
        pdbx_struct_assembly_gen matrices PDB_model_num rest
        (assemblies ++
           [createModelsAssembly pdbx_struct_assembly
              pdbx_struct_assembly_gen i matrices PDB_model_num])
  end.

Definition createModelsAssemblies (pdbx_struct_assembly : StructAssembly)
    (pdbx_struct_assembly_gen : StructAssemblyGen)
    (pdbx_struct_oper_list : StructOperList) (PDB_model_num : CifField)
  : list ModelsAssembly :=
  if (asm_rowCount pdbx_struct_assembly =? 0)%nat then []
  else
    let matrices := getMatrices pdbx_struct_oper_list in
    createModelsAssemblies_loop pdbx_struct_assembly
      pdbx_struct_assembly_gen matrices PDB_model_num
      (seq 0 (asm_rowCount pdbx_struct_assembly)) [].

(** ** Tasks

    A task runs against the trajectory, the one object that outlives a
    call: it either returns or throws, and in both cases leaves the
    trajectory as the run has changed it. *)
Definition Task (A : Type) : Type := Trajectory → Completion A * Trajectory.

#[local] Instance Task_ret : MRet Task := λ A a t, (Return a, t).

#[local] Instance Task_bind : MBind Task := λ A B k c t,
  match c t with
  | (Return a, t') => k a t'
  | (Throw e, t') => (Throw e, t')
  end.

Definition throw {A : Type} (e : Exn) : Task A := λ t, (Throw e, t).

Definition liftCompletion {A : Type} (c : Completion A) : Task A := λ t, (c, t).

(** The resolved model is the object stored in the trajectory at
    [modelIndex]; reading one of its properties reads the stored object
    ([TypeError] when the frame is [undefined]), an assignment to one of
    its properties changes the stored object. *)
Definition Model_read (model : Z) : Task Model := λ t,
  match getFrameAtIndex t model with
  | Some m => (Return m, t)
  | None => (Throw (TypeError "sourceData"), t)
  end.

Definition Model_assign (model : Z) (f : Model → Model) : Task () := λ t,
  match getFrameAtIndex t model with
  | Some m =>
      (Return (),
       {| frames := <[Z.to_nat model := f m]> (frames t);
          __modelsAssemblies := __modelsAssemblies t |})
  | None => (Throw (TypeError "model"), t)
  end.

Fixpoint forEach {A : Type} (array : list A) (body : A → Task ()) : Task () :=
  match array with
  | [] => mret ()
  | x :: rest => body x ;; forEach rest body
  end.

(** ** [buildModelsAssembly] (lines 55-101) *)

Definition Model_set_label (label' : string) (m : Model) : Model :=
  {| label := label'; entities := entities m;
     atomicHierarchy := atomicHierarchy m; sourceData := sourceData m |}.

Definition Model_set_entities_data (data' : EntityTable) (m : Model) : Model :=
  {| label := label m;
     entities := {| data := data';
                    getEntityIndex := getEntityIndex (entities m) |};
     atomicHierarchy := atomicHierarchy m; sourceData := sourceData m |}.

(** [model.entities.data.pdbx_description.__array[idx] = v]: a write into
    the array behind the column (an index outside the array adds the
    property), a [TypeError] when the column has no [__array]. *)
Definition description_array_assign (model : Z) (idx : Z) (v : list string)
  : Task () :=
  m ← Model_read model;
  match pdbx_description (data (entities m)) with
  | ArrayColumn a =>
      Model_assign model
        (Model_set_entities_data
           {| pdbx_description := ArrayColumn (<[idx := v]> a);
              entity_columns := entity_columns (data (entities m)) |})
  | FieldColumn _ _ => throw (TypeError "__array")
  end.

(** Lines 64-75, "hack to use model name as entity description". *)
Definition useModelNameAsEntityDescription (model : Z) (label : string)
  : Task () :=
  Model_assign model (Model_set_label label) ;;
  m ← Model_read model;
  Model_assign model
    (Model_set_entities_data
       {| pdbx_description :=
            Column_asArrayColumn (pdbx_description (data (entities m)));
          entity_columns := entity_columns (data (entities m)) |}) ;;
  m ← Model_read model;
  let entityIds := chains_label_entity_id (atomicHierarchy m) in
  forEach entityIds (λ entityId,
    m ← Model_read model;
    let idx := getEntityIndex (entities m) entityId in
    description_array_assign model idx [label]).

(** Lines 77-81, "hack to cache models assemblies". *)
Definition cachedModelsAssemblies (db : MmcifDatabase) (PDB_model_num : CifField)
  : Task (list ModelsAssembly) := λ trajectory,
  match __modelsAssemblies trajectory with
  | Some modelsAssemblies => (Return modelsAssemblies, trajectory)
  | None =>
      let modelsAssemblies :=
        createModelsAssemblies (pdbx_struct_assembly db)
          (pdbx_struct_assembly_gen db) (pdbx_struct_oper_list db)
          PDB_model_num in
      (Return modelsAssemblies,
       {| frames := frames trajectory;
          __modelsAssemblies := Some modelsAssemblies |})
  end.

(** Lines 93-97: for every operator of the group, for every unit. *)
Definition addUnits (assembler : StructureBuilder)
    (operators : list SymmetryOperator) (units : list StructUnit)
  : StructureBuilder :=
  foldl (λ assembler oper,
           foldl (λ assembler unit, addWithOperator assembler unit oper)
             assembler units)
    assembler operators.

Definition notDefined (asmName : string) : Exn :=
  Error ("Models Assembly '" +:+ asmName +:+ "' is not defined.").

Definition buildModelsAssembly (trajectory : Trajectory) (asmName : string)
    (modelIndex : Z) : Completion (option Structure) * Trajectory :=
  ((* line 57: the frame; line 58 reads [model.sourceData] *)
   model ← Model_read modelIndex;
   match sourceData model with
   | OtherFormat _ => mret None
   | MmcifFormat sourceData_data =>
       let db := db sourceData_data in
       let frame := frame sourceData_data in
       let pdbx_model := pdbx_model_name frame in
       let PDB_model_num := pdbx_struct_assembly_gen_PDB_model_num frame in
       let label := str pdbx_model modelIndex in
       (* lines 66-75 *)
       useModelNameAsEntityDescription modelIndex label ;;
       (* lines 78-81 *)
       modelsAssemblies ← cachedModelsAssemblies db PDB_model_num;
       match arrayFind modelsAssemblies
               (λ ma, strict_eq (toLowerCase (id (assembly ma))) asmName) with
       | None => throw (notDefined asmName)
       | Some modelsAssembly =>
           let assembly := assembly modelsAssembly in
           let assembler := Structure_Builder in
           (* line 88 *)
           operatorGroups ← liftCompletion (operatorGroups assembly);
           let g := js_index operatorGroups modelIndex in
           model ← Model_read modelIndex;
           let structure := Structure_ofModel model in
           (* line 93 reads [g.operators] *)
           match g with
           | None => throw (TypeError "operators")
           | Some g =>
               mret (Some (getStructure
                             (addUnits assembler (operators g)
                                (units structure))))
           end
       end
   end) trajectory.

(** ** [StructureFromPetworld] (lines 29-53) *)

(** What [apply] hands to the state tree: [StateObject.Null] or a
    [SO.Molecule.Structure] with its props. *)
Inductive StateObject : Type :=
  | Null
  | MoleculeStructure (s : Structure) (props_label props_description : string).

Definition StructureFromPetworld_apply (a_data : Trajectory)
    (params_modelIndex : Z) : Completion StateObject * Trajectory :=
  match buildModelsAssembly a_data "1" params_modelIndex with
  | (Throw e, a_data') => (Throw e, a_data')
  | (Return None, a_data') => (Return Null, a_data')
  | (Return (Some s), a_data') =>
      (Return (MoleculeStructure s (label (Structure_model s))
                 (Structure_elementDescription s)),
       a_data')
  end.

End Petworld.

(** ** What the code leaves behind, in closed form *)

Section Effects.
Context {T : LibraryTypes} {I : LibraryImports}.

(** The trajectory with the object at [modelIndex] replaced. *)
Definition storeFrame (trajectory : Trajectory) (modelIndex : Z) (m : Model)
  : Trajectory :=
  {| frames := <[Z.to_nat modelIndex := m]> (frames trajectory);
     __modelsAssemblies := __modelsAssemblies trajectory |}.

(** The array behind the description column once [label] has been written
    at the entity index of every chain. *)
Definition patchedDescriptions (label : string) (getEntityIndex : string → Z)
    (entityIds : list string) (array : gmap Z (list string))
  : gmap Z (list string) :=
  foldl (λ array entityId, <[getEntityIndex entityId := [label]]> array)
    array entityIds.

(** The model as lines 64-75 leave it. *)
Definition patchedModel (label' : string) (m : Model) : Model :=
  {| label := label';
     entities :=
       {| data :=
            {| pdbx_description :=
                 ArrayColumn
                   (patchedDescriptions label' (getEntityIndex (entities m))
                      (chains_label_entity_id (atomicHierarchy m))
                      (Column_toArray (pdbx_description (data (entities m)))));
               entity_columns := entity_columns (data (entities m)) |};
          getEntityIndex := getEntityIndex (entities m) |};
     atomicHierarchy := atomicHierarchy m;
     sourceData := sourceData m |}.

(** The label the code reads for the model at [modelIndex]. *)
Definition modelLabel (d : MmcifData) (modelIndex : Z) : string :=
  str (pdbx_model_name (frame d)) modelIndex.

(** What the table reader returns on the tables of [d]. *)
Definition assembliesOfTables (d : MmcifData) : list ModelsAssembly :=
  createModelsAssemblies (pdbx_struct_assembly (db d))
    (pdbx_struct_assembly_gen (db d)) (pdbx_struct_oper_list (db d))
    (pdbx_struct_assembly_gen_PDB_model_num (frame d)).

(** The models assemblies a request sees: the ones stored on the trajectory,
    or the ones read from the tables when none is stored yet. *)
Definition modelsAssembliesOf (trajectory : Trajectory) (d : MmcifData)
  : list ModelsAssembly :=
  match __modelsAssemblies trajectory with
  | Some modelsAssemblies => modelsAssemblies
  | None => assembliesOfTables d
  end.

(** The predicate of line 83. *)
Definition matchesName (asmName : string) (ma : ModelsAssembly) : bool :=
  strict_eq (toLowerCase (id (assembly ma))) asmName.

(** The units the assembler holds after the two loops, one per pair of an
    operator of the group and a unit of the base structure, operators
    first. *)
Definition duplicatedUnits (operators : list SymmetryOperator)
    (units : list StructUnit) : list StructUnit :=
  imap (λ n p, Unit_applyOperator p.2 (Z.of_nat n) p.1)
    (list_prod operators units).

(** The outcome of lines 83-99 on the models assemblies [mas] and the
    patched model [m]. *)
Definition assembled (mas : list ModelsAssembly) (asmName : string)
    (modelIndex : Z) (m : Model) : Completion (option Structure) :=
  match arrayFind mas (matchesName asmName) with
  | None => Throw (notDefined asmName)
  | Some modelsAssembly =>
      match operatorGroups (assembly modelsAssembly) with
      | Throw e => Throw e
      | Return groups =>
          match js_index groups modelIndex with
          | None => Throw (TypeError "operators")
          | Some g =>
              Return (Some {| units :=
                duplicatedUnits (operators g) (units (Structure_ofModel m)) |})
          end
      end
  end.

(** A run of requests on one trajectory, each a pair of an assembly name
    and a model index; what is left is the trajectory after the last. *)
Definition runRequests (trajectory : Trajectory)
    (requests : list (string * Z)) : Trajectory :=
  foldl (λ trajectory request,
           (buildModelsAssembly trajectory request.1 request.2).2)
    trajectory requests.

(** The generator rows of an assembly id, in table order. *)
Definition generatorRows (pdbx_struct_assembly_gen : StructAssemblyGen)
    (id : string) : list nat :=
  filter (λ i, assembly_id pdbx_struct_assembly_gen i = id)
    (seq 0 (gen_rowCount pdbx_struct_assembly_gen)).

(** ** The claims of the specification that the code does not meet, as the
    specification words them *)

(** "Assemblies with zero generator rows are omitted": every returned
    entry has a generator row. *)
Definition omitsAssembliesWithoutGenerators
    (pdbx_struct_assembly_gen : StructAssemblyGen)
    (result : list ModelsAssembly) : Prop :=
  ∀ ma, ma ∈ result →
    generatorRows pdbx_struct_assembly_gen (id (assembly ma)) ≠ [].

(** "If the index has no corresponding group, result is empty ... rather
    than an error": the call returns, with nothing or with a structure
    without units. *)
Definition returnsEmpty (outcome : Completion (option Structure)) : Prop :=
  outcome = Return None ∨
  ∃ s, outcome = Return (Some s) ∧ units s = [].

(** "Select the entry whose assembly id matches [assemblyId]
    case-insensitively". *)
Definition matchesCaseInsensitively (asmName : string) (ma : ModelsAssembly)
  : bool :=
  strict_eq (toLowerCase (id (assembly ma))) (toLowerCase asmName).

End Effects.

(** ** A small PetWorld file

    Operators are named by strings, a unit is a chain together with the id
    and the operator it was duplicated under, and an operator expression is
    a comma list. *)

Fixpoint splitComma (s : string) (current : string) : list string :=
  match s with
  | EmptyString => [current]
  | String c r =>
      if Ascii.eqb c ","%char then current :: splitComma r ""
      else splitComma r (current +:+ String c "")
  end.

#[export] Instance demoTypes : LibraryTypes := {|
  Mat4 := ();
  SymmetryOperator := string;
  StructureQuery := list string;
  StructUnit := string * Z * string;
  AtomicData := list string;
  EntityColumns := list string;
  StructOperList := list string
|}.

Definition demoGroups (generators : list Generator)
  : list (@OperatorGroup demoTypes) :=
  (λ g, {| selector := asymIds g;
           operators := splitComma (expression g) "" |}) <$> generators.

Definition demoEmptyModel : @Model demoTypes :=
  {| label := "";
     entities := {| data := {| pdbx_description := ArrayColumn ∅;
                               entity_columns := [] |};
                    getEntityIndex := λ _, -1 |};
     atomicHierarchy := {| chains_label_entity_id := []; atomic_data := [] |};
     sourceData := OtherFormat "" |}.

(** The strings of the small file are ASCII: lowering shifts the letters
    [A]..[Z] to [a]..[z] and keeps every other character. *)
Definition ascii_toLowerCase (c : ascii) : ascii :=
  let n := nat_of_ascii c in
  if ((65 <=? n) && (n <=? 90))%nat then ascii_of_nat (n + 32) else c.

Fixpoint asciiLowerCase (s : string) : string :=
  match s with
  | EmptyString => EmptyString
  | String c r => String (ascii_toLowerCase c) (asciiLowerCase r)
  end.

#[export] Instance demoImports : @LibraryImports demoTypes := {|
  toLowerCase := asciiLowerCase;
  getMatrices := λ operatorIds, list_to_map ((λ i, (i, ())) <$> operatorIds);
  operatorGroupsProvider := λ generators _ _, Return (demoGroups generators);
  Structure_ofModel := λ m,
    {| units := (λ chain, (chain, 0, "1_555")) <$> atomic_data (atomicHierarchy m) |};
  Unit_applyOperator := λ unit id oper, (unit.1.1, id, oper);
  Structure_model := λ _, demoEmptyModel;
  Structure_elementDescription := λ _, ""
|}.

(** The tables: assembly ids, and generator rows (assembly id, operator
    expression, model number). *)
Definition demoData (assemblyIds : list string)
    (generatorRows : list (string * string * Z)) : MmcifData :=
  {| db :=
       {| pdbx_struct_assembly :=
            {| asm_rowCount := length assemblyIds;
               asm_id := λ i, default "" (assemblyIds !! i);
               asm_details := λ _, "" |};
          pdbx_struct_assembly_gen :=
            {| gen_rowCount := length generatorRows;
               assembly_id := λ i, default "" ((λ r, r.1.1) <$> generatorRows !! i);
               oper_expression := λ i, default "" ((λ r, r.1.2) <$> generatorRows !! i);
               asym_id_list := λ _, ["A"; "B"] |};
          pdbx_struct_oper_list := ["1"; "2"; "3"] |};
     frame :=
       {| pdbx_model_name := {| str := λ i, "pet"; int := λ _, 0 |};
          pdbx_struct_assembly_gen_PDB_model_num :=
            {| str := λ _, "";
               int := λ i, default 0 ((λ r, r.2) <$> generatorRows !! Z.to_nat i) |} |} |}.

(** A model with five chains of two entities; the description column is
    still the CIF-backed one. *)
Definition demoModel (format : ModelFormat) : Model :=
  {| label := "";
     entities :=
       {| data := {| pdbx_description := FieldColumn 3 (λ i, ["entity"]);
                     entity_columns := ["polymer"; "polymer"; "water"] |};
          getEntityIndex := λ e,
            if strict_eq e "1" then 0 else if strict_eq e "2" then 1 else -1 |};
     atomicHierarchy :=
       {| chains_label_entity_id := ["1"; "1"; "2"; "2"; "2"];
          atomic_data := ["A"; "B"; "C"; "D"; "E"] |};
     sourceData := format |}.

Definition demoTrajectory (d : MmcifData) (frameCount : nat) : Trajectory :=
  {| frames := replicate frameCount (demoModel (MmcifFormat d));
     __modelsAssemblies := None |}.

(** The scenario of the specification: one assembly ["1"], two generator
    rows with the expressions ["1"] and ["2,3"] for the models 10 and 11. *)
Definition scenarioData : MmcifData :=
  demoData ["1"] [("1", "1", 10); ("1", "2,3", 11)].

(** An assembly ["2"] without generator rows next to the assembly ["1"]. *)
Definition twoAssembliesData : MmcifData :=
  demoData ["1"; "2"] [("1", "1", 10); ("1", "2,3", 11)].


(** A trajectory whose only frame was not read from mmCIF. *)
Definition otherFormatTrajectory : Trajectory :=
  {| frames := [demoModel (OtherFormat "pdb")];
     __modelsAssemblies := None |}.

Section FrameCount.
Context {T : LibraryTypes}.

(** [trajectory.frameCount]. *)
Definition frameCount (trajectory : Trajectory) : Z :=
  Z.of_nat (length (frames trajectory)).

End FrameCount.

Section Selection.
Context {T : LibraryTypes} {I : LibraryImports}.


(** The generators line 135 builds for the rows [rows] of the assembly
    [id]. *)
Definition generatorsOfRows (pdbx_struct_assembly_gen : StructAssemblyGen)
    (id : string) (rows : list nat) : list Generator :=
  (λ i, {| assemblyId := id;
           expression := oper_expression pdbx_struct_assembly_gen i;
           asymIds := asym_id_list pdbx_struct_assembly_gen i |}) <$> rows.

End Selection.

(** * Properties *)

Section Properties.
Context {T : LibraryTypes} {I : LibraryImports}.
#[local] Existing Instances Task_ret Task_bind.

(** ** Arrays and tasks *)

Lemma js_index_Some {A : Type} (array : list A) (i : Z) (x : A) :
  js_index array i = Some x → 0 ≤ i ∧ array !! Z.to_nat i = Some x.
Proof.
  unfold js_index. destruct (i <? 0) eqn:E; [discriminate|].
  apply Z.ltb_ge in E. auto.
Qed.

Lemma js_index_nat {A : Type} (array : list A) (n : nat) :
  js_index array (Z.of_nat n) = array !! n.
Proof.
  unfold js_index. destruct (Z.of_nat n <? 0) eqn:E.
  - apply Z.ltb_lt in E. lia.
  - by rewrite Nat2Z.id.
Qed.

Lemma arrayFind_Some {A : Type} (array : list A) (f : A → bool) (x : A) :
  arrayFind array f = Some x → x ∈ array ∧ f x = true.
Proof.
  induction array as [|y rest IH]; simpl; [discriminate|].
  destruct (f y) eqn:E.
  - intros [= ->]. split; [left | done].
  - intros H. destruct (IH H). split; [by right | done].
Qed.


Lemma bind_Return {A B : Type} (c : Task A) (k : A → Task B) t a t' :
  c t = (Return a, t') → (c ≫= k) t = k a t'.
Proof. intros H. unfold mbind, Task_bind. by rewrite H. Qed.

Lemma bind_Throw {A B : Type} (c : Task A) (k : A → Task B) t e t' :
  c t = (Throw e, t') → (c ≫= k) t = (Throw e, t').
Proof. intros H. unfold mbind, Task_bind. by rewrite H. Qed.

Lemma Model_read_run t i m :
  getFrameAtIndex t i = Some m → Model_read i t = (Return m, t).
Proof. intros H. unfold Model_read. by rewrite H. Qed.

Lemma Model_assign_run t i m f :
  getFrameAtIndex t i = Some m →
  Model_assign i f t = (Return (), storeFrame t i (f m)).
Proof. intros H. unfold Model_assign. by rewrite H. Qed.

Lemma getFrameAtIndex_storeFrame t i m m' :
  getFrameAtIndex t i = Some m →
  getFrameAtIndex (storeFrame t i m') i = Some m'.
Proof.
  unfold getFrameAtIndex. intros [Hi Hm]%js_index_Some.
  unfold js_index. simpl. destruct (i <? 0) eqn:E.
  - apply Z.ltb_lt in E. lia.
  - apply list_lookup_insert_eq. by eapply lookup_lt_Some.
Qed.

Lemma getFrameAtIndex_storeFrame_ne t i j m' :
  0 ≤ i → i ≠ j →
  getFrameAtIndex (storeFrame t i m') j = getFrameAtIndex t j.
Proof.
  intros Hi Hne. unfold getFrameAtIndex, js_index. simpl.
  destruct (j <? 0) eqn:E; [done|]. apply Z.ltb_ge in E.
  apply list_lookup_insert_ne. lia.
Qed.

Lemma storeFrame_storeFrame t i m m' :
  storeFrame (storeFrame t i m) i m' = storeFrame t i m'.
Proof. unfold storeFrame. simpl. by rewrite list_insert_insert_eq. Qed.

Lemma storeFrame_id t i m :
  getFrameAtIndex t i = Some m → storeFrame t i m = t.
Proof.
  unfold getFrameAtIndex. intros [Hi Hm]%js_index_Some.
  destruct t as [fs c]. unfold storeFrame. simpl in *.
  by rewrite list_insert_id.
Qed.

Lemma cache_storeFrame t i m :
  __modelsAssemblies (storeFrame t i m) = __modelsAssemblies t.
Proof. done. Qed.

(** ** The entity-description patch *)

Lemma Model_set_entities_data_twice (d1 d2 : EntityTable) (m : Model) :
  Model_set_entities_data d2 (Model_set_entities_data d1 m)
  = Model_set_entities_data d2 m.
Proof. done. Qed.

Lemma Model_set_entities_data_id (m : Model) :
  Model_set_entities_data (data (entities m)) m = m.
Proof. by destruct m as [l [d g] h s]. Qed.

Lemma forEach_description t i m0 label ids : ∀ m a,
  getFrameAtIndex t i = Some m0 →
  pdbx_description (data (entities m)) = ArrayColumn a →
  forEach ids (λ entityId,
    m ← Model_read i;
    let idx := getEntityIndex (entities m) entityId in
    description_array_assign i idx [label]) (storeFrame t i m)
  = (Return (),
     storeFrame t i
       (Model_set_entities_data
          {| pdbx_description :=
               ArrayColumn
                 (patchedDescriptions label (getEntityIndex (entities m)) ids a);
             entity_columns := entity_columns (data (entities m)) |} m)).
Proof.
  induction ids as [|e ids IH]; intros m a Hm Ha.
  - simpl. f_equal. f_equal. rewrite <- Ha.
    destruct m as [l [[d c] g] h s]. done.
  - simpl.
    assert (Hm' : getFrameAtIndex (storeFrame t i m) i = Some m)
      by (by eapply getFrameAtIndex_storeFrame).
    erewrite bind_Return; last first.
    { erewrite bind_Return; [|by apply Model_read_run].
      simpl. unfold description_array_assign.
      erewrite bind_Return; [|by apply Model_read_run].
      rewrite Ha. by apply Model_assign_run. }
    rewrite storeFrame_storeFrame.
    by rewrite (IH _ (<[getEntityIndex (entities m) e := [label]]> a)).
Qed.

Lemma useModelNameAsEntityDescription_run t i m label :
  getFrameAtIndex t i = Some m →
  useModelNameAsEntityDescription i label t
  = (Return (), storeFrame t i (patchedModel label m)).
Proof.
  intros Hm. unfold useModelNameAsEntityDescription.
  erewrite bind_Return; [|by apply Model_assign_run].
  pose proof (getFrameAtIndex_storeFrame t i m (Model_set_label label m) Hm) as H1.
  erewrite bind_Return; [|by apply Model_read_run].
  erewrite bind_Return; [|by apply Model_assign_run].
  rewrite storeFrame_storeFrame.
  match goal with |- context [storeFrame t i ?x] => set (m2 := x) end.
  pose proof (getFrameAtIndex_storeFrame t i m m2 Hm) as H2.
  erewrite bind_Return; [|by apply Model_read_run].
  cbv zeta.
  rewrite (forEach_description t i m label _ m2
             (Column_toArray (pdbx_description (data (entities m))))); [|done|].
  - done.
  - subst m2. simpl. by destruct (pdbx_description (data (entities m))).
Qed.

(** ** The table readers *)

Lemma collectGenerators_spec (sag : StructAssemblyGen) (id : string)
    (PDB_model_num : CifField) (rows : list nat) : ∀ generators modelNums,
  collectGenerators sag id PDB_model_num rows generators modelNums
  = (generators ++
       ((λ i, {| assemblyId := id; expression := oper_expression sag i;
                 asymIds := asym_id_list sag i |})
          <$> filter (λ i, assembly_id sag i = id) rows),
     modelNums ++
       ((λ i, int PDB_model_num (Z.of_nat i))
          <$> filter (λ i, assembly_id sag i = id) rows)).
Proof.
  induction rows as [|i rows IH]; intros generators modelNums; simpl.
  - by rewrite !app_nil_r.
  - unfold strict_eq. case_bool_decide as Hid; simpl.
    + rewrite IH, filter_cons_True by done. simpl.
      by rewrite <- !app_assoc.
    + by rewrite IH, filter_cons_False.
Qed.

Lemma createModelsAssembly_modelNums (sa : StructAssembly)
    (sag : StructAssemblyGen) (index : nat) (matrices : Matrices)
    (PDB_model_num : CifField) :
  modelNums (createModelsAssembly sa sag index matrices PDB_model_num)
  = (λ i, int PDB_model_num (Z.of_nat i))
      <$> generatorRows sag (asm_id sa index).
Proof.
  unfold createModelsAssembly. by rewrite collectGenerators_spec.
Qed.

Lemma createModelsAssembly_id (sa : StructAssembly) (sag : StructAssemblyGen)
    (index : nat) (matrices : Matrices) (PDB_model_num : CifField) :
  id (assembly (createModelsAssembly sa sag index matrices PDB_model_num))
  = asm_id sa index.
Proof.
  unfold createModelsAssembly. by rewrite collectGenerators_spec.
Qed.

Lemma createModelsAssemblies_loop_spec (sa : StructAssembly)
    (sag : StructAssemblyGen) (matrices : Matrices) (PDB_model_num : CifField)
    (rows : list nat) : ∀ assemblies,
  createModelsAssemblies_loop sa sag matrices PDB_model_num rows assemblies
  = assemblies ++
      ((λ i, createModelsAssembly sa sag i matrices PDB_model_num) <$> rows).
Proof.
  induction rows as [|i rows IH]; intros assemblies; simpl.
  - by rewrite app_nil_r.
  - by rewrite IH, <- app_assoc.
Qed.

Lemma createModelsAssemblies_spec (sa : StructAssembly)
    (sag : StructAssemblyGen) (ol : StructOperList) (PDB_model_num : CifField) :
  createModelsAssemblies sa sag ol PDB_model_num
  = (λ i, createModelsAssembly sa sag i (getMatrices ol) PDB_model_num)
      <$> seq 0 (asm_rowCount sa).
Proof.
  unfold createModelsAssemblies.
  destruct (asm_rowCount sa =? 0)%nat eqn:E.
  - apply Nat.eqb_eq in E. by rewrite E.
  - by rewrite createModelsAssemblies_loop_spec.
Qed.

(** ** The two loops of the assembler *)

Lemma addUnits_inner (oper : SymmetryOperator) (units : list StructUnit) :
  ∀ assembler : StructureBuilder,
  foldl (λ assembler unit, addWithOperator assembler unit oper) assembler units
  = assembler ++
      imap (λ n unit,
              Unit_applyOperator unit (Z.of_nat (length assembler + n)) oper)
        units.
Proof.
  induction units as [|u units IH]; intros assembler; simpl.
  - by rewrite app_nil_r.
  - rewrite IH. unfold addWithOperator. rewrite <- app_assoc. simpl.
    rewrite Nat.add_0_r. do 2 f_equal.
    apply imap_ext. intros n x _. simpl.
    rewrite length_app. simpl. do 2 f_equal. lia.
Qed.

Lemma addUnits_spec (operators : list SymmetryOperator)
    (units : list StructUnit) : ∀ assembler : StructureBuilder,
  addUnits assembler operators units
  = assembler ++
      imap (λ n p,
              Unit_applyOperator p.2 (Z.of_nat (length assembler + n)) p.1)
        (list_prod operators units).
Proof.
  unfold addUnits.
  induction operators as [|oper operators IH]; intros assembler; simpl.
  - by rewrite app_nil_r.
  - rewrite IH, addUnits_inner, <- app_assoc. f_equal.
    rewrite imap_app. f_equal.
    + change (map (λ y, (oper, y)) units) with ((λ y, (oper, y)) <$> units).
      by rewrite imap_fmap.
    + apply imap_ext. intros n x _. simpl.
      rewrite length_app, length_imap, length_map. do 2 f_equal. lia.
Qed.

Lemma addUnits_duplicatedUnits (operators : list SymmetryOperator)
    (units : list StructUnit) :
  addUnits Structure_Builder operators units = duplicatedUnits operators units.
Proof. by rewrite addUnits_spec. Qed.

Lemma length_duplicatedUnits (operators : list SymmetryOperator)
    (units : list StructUnit) :
  length (duplicatedUnits operators units)
  = (length operators * length units)%nat.
Proof. unfold duplicatedUnits. by rewrite length_imap, length_prod. Qed.

(** ** [buildModelsAssembly], case by case *)

Lemma cachedModelsAssemblies_run (trajectory : Trajectory) (d : MmcifData) :
  cachedModelsAssemblies (db d)
    (pdbx_struct_assembly_gen_PDB_model_num (frame d)) trajectory
  = (Return (modelsAssembliesOf trajectory d),
     {| frames := frames trajectory;
        __modelsAssemblies := Some (modelsAssembliesOf trajectory d) |}).
Proof.
  unfold cachedModelsAssemblies, modelsAssembliesOf.
  destruct trajectory as [fs [c|]]; done.
Qed.

Lemma buildModelsAssembly_unresolved trajectory asmName modelIndex :
  getFrameAtIndex trajectory modelIndex = None →
  buildModelsAssembly trajectory asmName modelIndex
  = (Throw (TypeError "sourceData"), trajectory).
Proof.
  intros H. unfold buildModelsAssembly.
  apply bind_Throw. unfold Model_read. by rewrite H.
Qed.

Lemma buildModelsAssembly_other trajectory asmName modelIndex model kind :
  getFrameAtIndex trajectory modelIndex = Some model →
  sourceData model = OtherFormat kind →
  buildModelsAssembly trajectory asmName modelIndex
  = (Return None, trajectory).
Proof.
  intros Hm Hs. unfold buildModelsAssembly.
  erewrite bind_Return; [|by apply Model_read_run]. by rewrite Hs.
Qed.

Lemma buildModelsAssembly_mmcif trajectory asmName modelIndex model d :
  getFrameAtIndex trajectory modelIndex = Some model →
  sourceData model = MmcifFormat d →
  buildModelsAssembly trajectory asmName modelIndex
  = (assembled (modelsAssembliesOf trajectory d) asmName modelIndex
       (patchedModel (modelLabel d modelIndex) model),
     {| frames :=
          <[Z.to_nat modelIndex := patchedModel (modelLabel d modelIndex) model]>
            (frames trajectory);
        __modelsAssemblies := Some (modelsAssembliesOf trajectory d) |}).
Proof.
  intros Hm Hs. unfold buildModelsAssembly.
  erewrite bind_Return; [|by apply Model_read_run]. rewrite Hs. cbv zeta.
  erewrite bind_Return; [|by apply useModelNameAsEntityDescription_run].
  erewrite bind_Return; [|by apply cachedModelsAssemblies_run].
  fold (modelLabel d modelIndex).
  set (m' := patchedModel (modelLabel d modelIndex) model).
  change (modelsAssembliesOf (storeFrame trajectory modelIndex m') d)
    with (modelsAssembliesOf trajectory d).
  unfold assembled, matchesName.
  destruct (arrayFind _ _) as [ma|]; [|done].
  unfold liftCompletion.
  destruct (operatorGroups (assembly ma)) as [groups|e] eqn:Hg.
  - erewrite bind_Return; [|done].
    erewrite bind_Return; last first.
    { apply Model_read_run.
      exact (getFrameAtIndex_storeFrame trajectory modelIndex model m' Hm). }
    destruct (js_index groups modelIndex) as [g|]; [|done].
    unfold mret, Task_ret, getStructure. by rewrite addUnits_duplicatedUnits.
  - by erewrite bind_Throw.
Qed.

Lemma list_prod_lookup {A B : Type} (l : list A) (l' : list B) a b x y :
  l !! a = Some x → l' !! b = Some y →
  list_prod l l' !! (a * length l' + b)%nat = Some (x, y).
Proof.
  revert a. induction l as [|z l IH]; intros a Ha Hb; [done|].
  simpl. destruct a as [|a]; simpl in *.
  - injection Ha as ->. rewrite lookup_app_l.
    + change (map (λ y0, (x, y0)) l') with ((λ y0, (x, y0)) <$> l').
      by rewrite list_lookup_fmap, Hb.
    + rewrite length_map. by eapply lookup_lt_Some.
  - rewrite lookup_app_r; rewrite length_map; [|lia].
    replace (length l' + a * length l' + b - length l')%nat
      with (a * length l' + b)%nat by lia.
    by apply IH.
Qed.

Lemma duplicatedUnits_lookup (operators : list SymmetryOperator)
    (units : list StructUnit) a b oper unit :
  operators !! a = Some oper → units !! b = Some unit →
  duplicatedUnits operators units !! (a * length units + b)%nat
  = Some (Unit_applyOperator unit (Z.of_nat (a * length units + b)) oper).
Proof.
  intros Ha Hb. unfold duplicatedUnits.
  by rewrite list_lookup_imap, (list_prod_lookup _ _ _ _ oper unit).
Qed.

(** ** The cache on the trajectory *)

Lemma buildModelsAssembly_keeps_cache trajectory asmName modelIndex c :
  __modelsAssemblies trajectory = Some c →
  __modelsAssemblies (buildModelsAssembly trajectory asmName modelIndex).2
  = Some c.
Proof.
  intros Hc.
  destruct (getFrameAtIndex trajectory modelIndex) as [model|] eqn:Hm.
  - destruct (sourceData model) as [d|kind] eqn:Hs.
    + rewrite (buildModelsAssembly_mmcif _ _ _ _ _ Hm Hs). simpl.
      unfold modelsAssembliesOf. by rewrite Hc.
    + by rewrite (buildModelsAssembly_other _ _ _ _ _ Hm Hs).
  - by rewrite (buildModelsAssembly_unresolved _ _ _ Hm).
Qed.

Lemma runRequests_keeps_cache requests : ∀ trajectory c,
  __modelsAssemblies trajectory = Some c →
  __modelsAssemblies (runRequests trajectory requests) = Some c.
Proof.
  induction requests as [|[asmName modelIndex] requests IH];
    intros trajectory c Hc; [done|].
  simpl. apply IH. by apply buildModelsAssembly_keeps_cache.
Qed.

(** ** The lookup of the assembly *)

Lemma asciiLowerCase_idempotent (s : string) :
  asciiLowerCase (asciiLowerCase s) = asciiLowerCase s.
Proof.
  induction s as [|c s IH]; simpl; [done|]. f_equal; [|done].
  unfold ascii_toLowerCase at 1.
  destruct (_ && _)%nat eqn:E; [|done]. exfalso. revert E.
  generalize c. clear. intros c.
  destruct c as [[] [] [] [] [] [] [] []]; vm_compute; discriminate.
Qed.


(** A request that lowering changes matches no entry. *)
Lemma matchesName_upperCase_request (asmName : string) (ma : ModelsAssembly) :
  (∀ s, toLowerCase (toLowerCase s) = toLowerCase s) →
  toLowerCase asmName ≠ asmName → matchesName asmName ma = false.
Proof.
  intros Hidem H. unfold matchesName, strict_eq.
  case_bool_decide as E; [|done]. destruct H. by rewrite <- E, Hidem.
Qed.

Lemma buildModelsAssembly_notDefined trajectory asmName modelIndex model d :
  getFrameAtIndex trajectory modelIndex = Some model →
  sourceData model = MmcifFormat d →
  (∀ ma, ma ∈ modelsAssembliesOf trajectory d →
         toLowerCase (id (assembly ma)) ≠ asmName) →
  (buildModelsAssembly trajectory asmName modelIndex).1
  = Throw (notDefined asmName).
Proof.
  intros Hm Hs Hno. rewrite (buildModelsAssembly_mmcif _ _ _ _ _ Hm Hs).
  simpl. unfold assembled.
  destruct (arrayFind _ _) as [ma|] eqn:E; [|done].
  apply arrayFind_Some in E as [Hin Hma].
  unfold matchesName, strict_eq in Hma. case_bool_decide; [|done].
  by destruct (Hno ma Hin).
Qed.

(** ** The patch of the description column *)

Lemma patchedDescriptions_other (label : string) (index : string → Z)
    (entityIds : list string) (j : Z) : ∀ array : gmap Z (list string),
  j ∉ index <$> entityIds →
  patchedDescriptions label index entityIds array !! j = array !! j.
Proof.
  unfold patchedDescriptions.
  induction entityIds as [|e entityIds IH]; intros array Hj; [done|].
  simpl. rewrite fmap_cons, not_elem_of_cons in Hj. destruct Hj as [Hne Hj].
  rewrite IH by done. by rewrite lookup_insert_ne.
Qed.

Lemma patchedDescriptions_referenced (label : string) (index : string → Z)
    (entityIds : list string) (j : Z) : ∀ array : gmap Z (list string),
  j ∈ index <$> entityIds →
  patchedDescriptions label index entityIds array !! j = Some [label].
Proof.
  unfold patchedDescriptions.
  induction entityIds as [|e entityIds IH]; intros array Hj.
  - by apply not_elem_of_nil in Hj.
  - simpl. destruct (decide (j ∈ index <$> entityIds)) as [Hin|Hout].
    + by apply IH.
    + rewrite fmap_cons, elem_of_cons in Hj. destruct Hj as [->|Hj]; [|done].
      fold (patchedDescriptions label index entityIds
              (<[index e := [label]]> array)).
      rewrite patchedDescriptions_other by done.
      by rewrite lookup_insert_eq.
Qed.

(** * The claims *)

(** C1: when the request resolves an mmCIF model, the assembly matched for
    the requested name has, at the model index, an operator group of [k]
    operators, and the base structure of the model has [u] units, the
    build returns a structure of exactly [k * u] units: for the [a]-th
    operator and the [b]-th unit, the unit at position [a * u + b] is that
    unit duplicated under that operator. *)
Theorem buildModelsAssembly_unit_count trajectory asmName modelIndex model d
    modelsAssembly groups g (k u : nat) :
  getFrameAtIndex trajectory modelIndex = Some model →
  sourceData model = MmcifFormat d →
  arrayFind (modelsAssembliesOf trajectory d) (matchesName asmName)
    = Some modelsAssembly →
  operatorGroups (assembly modelsAssembly) = Return groups →
  js_index groups modelIndex = Some g →
  length (operators g) = k →
  length (units (Structure_ofModel
                   (patchedModel (modelLabel d modelIndex) model))) = u →
  ∃ s, (buildModelsAssembly trajectory asmName modelIndex).1 = Return (Some s)
       ∧ length (units s) = (k * u)%nat
       ∧ ∀ a b oper unit,
           operators g !! a = Some oper →
           units (Structure_ofModel
                    (patchedModel (modelLabel d modelIndex) model)) !! b
             = Some unit →
           units s !! (a * u + b)%nat
           = Some (Unit_applyOperator unit (Z.of_nat (a * u + b)) oper).
Proof.
  intros Hm Hs Hfind Hgroups Hg Hk Hu.
  rewrite (buildModelsAssembly_mmcif _ _ _ _ _ Hm Hs). simpl.
  unfold assembled. rewrite Hfind, Hgroups, Hg.
  eexists. split; [done|]. simpl. split.
  - by rewrite length_duplicatedUnits, Hk, Hu.
  - intros a b oper unit Ha Hb. rewrite <- Hu.
    by apply duplicatedUnits_lookup.
Qed.

(** C3 (as the code has it): the reader returns exactly one entry per row
    of the assembly table, in row order, with the id of that row and the
    model numbers of the generator rows that name this id; no row is left
    out, whether or not a generator row names its id. *)
Theorem createModelsAssemblies_one_per_row (sa : StructAssembly)
    (sag : StructAssemblyGen) (ol : StructOperList) (PDB_model_num : CifField) :
  length (createModelsAssemblies sa sag ol PDB_model_num) = asm_rowCount sa
  ∧ (λ ma, id (assembly ma)) <$> createModelsAssemblies sa sag ol PDB_model_num
    = asm_id sa <$> seq 0 (asm_rowCount sa)
  ∧ modelNums <$> createModelsAssemblies sa sag ol PDB_model_num
    = (λ index, (λ i, int PDB_model_num (Z.of_nat i))
                  <$> generatorRows sag (asm_id sa index))
        <$> seq 0 (asm_rowCount sa).
Proof.
  rewrite createModelsAssemblies_spec. repeat split.
  - by rewrite length_fmap, length_seq.
  - rewrite <- list_fmap_compose. apply list_fmap_ext.
    intros i index _. simpl. apply createModelsAssembly_id.
  - rewrite <- list_fmap_compose. apply list_fmap_ext.
    intros i index _. simpl. apply createModelsAssembly_modelNums.
Qed.

(** C4 (as the code has it): when the request resolves an mmCIF model and
    the operator groups of the matched assembly have no entry at the model
    index, the build does not return: reading [operators] of the missing
    group throws. *)
Theorem buildModelsAssembly_missing_group_throws trajectory asmName modelIndex
    model d modelsAssembly groups :
  getFrameAtIndex trajectory modelIndex = Some model →
  sourceData model = MmcifFormat d →
  arrayFind (modelsAssembliesOf trajectory d) (matchesName asmName)
    = Some modelsAssembly →
  operatorGroups (assembly modelsAssembly) = Return groups →
  js_index groups modelIndex = None →
  (buildModelsAssembly trajectory asmName modelIndex).1
  = Throw (TypeError "operators").
Proof.
  intros Hm Hs Hfind Hgroups Hg.
  rewrite (buildModelsAssembly_mmcif _ _ _ _ _ Hm Hs). simpl.
  unfold assembled. by rewrite Hfind, Hgroups, Hg.
Qed.

(** C5: on a trajectory that stores no models assemblies yet, a request
    that resolves an mmCIF model reads them from the tables and stores
    them on the trajectory; after that, whatever requests follow (any
    name, any model index), the stored list stays the same one, the cache
    step hands it back without a change of the trajectory whatever tables
    it is given, and a request that resolves an mmCIF model is answered
    from the stored list. *)
Theorem modelsAssemblies_cached_once trajectory asmName modelIndex model d :
  __modelsAssemblies trajectory = None →
  getFrameAtIndex trajectory modelIndex = Some model →
  sourceData model = MmcifFormat d →
  let first := (buildModelsAssembly trajectory asmName modelIndex).2 in
  __modelsAssemblies first = Some (assembliesOfTables d)
  ∧ ∀ requests,
      let later := runRequests first requests in
      __modelsAssemblies later = Some (assembliesOfTables d)
      ∧ (∀ d',
           cachedModelsAssemblies (db d')
             (pdbx_struct_assembly_gen_PDB_model_num (frame d')) later
           = (Return (assembliesOfTables d), later))
      ∧ (∀ asmName' modelIndex' model' d',
           getFrameAtIndex later modelIndex' = Some model' →
           sourceData model' = MmcifFormat d' →
           (buildModelsAssembly later asmName' modelIndex').1
           = assembled (assembliesOfTables d) asmName' modelIndex'
               (patchedModel (modelLabel d' modelIndex') model')).
Proof.
  intros Hnone Hm Hs first.
  assert (Hfirst : __modelsAssemblies first = Some (assembliesOfTables d)).
  { subst first. rewrite (buildModelsAssembly_mmcif _ _ _ _ _ Hm Hs). simpl.
    unfold modelsAssembliesOf. by rewrite Hnone. }
  split; [done|]. intros requests later.
  assert (Hlater : __modelsAssemblies later = Some (assembliesOfTables d))
    by (by apply runRequests_keeps_cache).
  split; [done|]. split.
  - intros d'. rewrite cachedModelsAssemblies_run.
    unfold modelsAssembliesOf. rewrite Hlater.
    destruct later as [fs c]. simpl in *. by rewrite Hlater.
  - intros asmName' modelIndex' model' d' Hm' Hs'.
    rewrite (buildModelsAssembly_mmcif _ _ _ _ _ Hm' Hs'). simpl.
    unfold modelsAssembliesOf. by rewrite Hlater.
Qed.

(** C6: for every row [index] of the assembly table, the entry built for
    it carries the id of that row, and its [modelNums] are the model
    numbers of the generator rows whose [assembly_id] is that id, in the
    order of the generator table; so there are as many as such rows. *)
Theorem createModelsAssembly_modelNums_rows (sa : StructAssembly)
    (sag : StructAssemblyGen) (index : nat) (matrices : Matrices)
    (PDB_model_num : CifField) :
  let ma := createModelsAssembly sa sag index matrices PDB_model_num in
  id (assembly ma) = asm_id sa index
  ∧ modelNums ma
    = (λ i, int PDB_model_num (Z.of_nat i))
        <$> generatorRows sag (asm_id sa index)
  ∧ length (modelNums ma) = length (generatorRows sag (asm_id sa index)).
Proof.
  cbv zeta. rewrite createModelsAssembly_id, createModelsAssembly_modelNums.
  by rewrite length_fmap.
Qed.

(** C7: on an assembly table without rows the reader returns the empty
    list (the reader is a total function: it returns, it does not
    throw). *)
Theorem createModelsAssemblies_no_rows (sa : StructAssembly)
    (sag : StructAssemblyGen) (ol : StructOperList) (PDB_model_num : CifField) :
  asm_rowCount sa = 0%nat →
  createModelsAssemblies sa sag ol PDB_model_num = [].
Proof. intros H. unfold createModelsAssemblies. by rewrite H. Qed.

(** C8: when the frame at the model index is resolved and its source data
    is not mmCIF, the build returns nothing ([undefined]) without a throw
    and without a change of the trajectory, and the state transform
    returns the null object. *)
Theorem buildModelsAssembly_not_mmcif trajectory asmName modelIndex model kind :
  getFrameAtIndex trajectory modelIndex = Some model →
  sourceData model = OtherFormat kind →
  buildModelsAssembly trajectory asmName modelIndex = (Return None, trajectory)
  ∧ StructureFromPetworld_apply trajectory modelIndex
    = (Return Null, trajectory).
Proof.
  intros Hm Hs. split.
  - by eapply buildModelsAssembly_other.
  - unfold StructureFromPetworld_apply.
    by rewrite (buildModelsAssembly_other _ _ _ _ _ Hm Hs).
Qed.

(** C9: the state transform is the build for the assembly name ["1"] and
    nothing else: its outcome is the outcome of that build, a structure it
    returns was assembled from the entry whose lower-cased id is ["1"], and
    when the models assemblies have no such entry it throws, whatever other
    assemblies the tables define. *)
Theorem StructureFromPetworld_builds_assembly_1 a_data modelIndex :
  let outcome := buildModelsAssembly a_data "1" modelIndex in
  StructureFromPetworld_apply a_data modelIndex
  = (match outcome.1 with
     | Throw e => Throw e
     | Return None => Return Null
     | Return (Some s) =>
         Return (MoleculeStructure s (label (Structure_model s))
                   (Structure_elementDescription s))
     end, outcome.2)
  ∧ (∀ s props_label props_description,
       (StructureFromPetworld_apply a_data modelIndex).1
       = Return (MoleculeStructure s props_label props_description) →
       ∃ model d modelsAssembly groups g,
         getFrameAtIndex a_data modelIndex = Some model
         ∧ sourceData model = MmcifFormat d
         ∧ arrayFind (modelsAssembliesOf a_data d) (matchesName "1")
           = Some modelsAssembly
         ∧ toLowerCase (id (assembly modelsAssembly)) = "1"
         ∧ operatorGroups (assembly modelsAssembly) = Return groups
         ∧ js_index groups modelIndex = Some g
         ∧ units s
           = duplicatedUnits (operators g)
               (units (Structure_ofModel
                         (patchedModel (modelLabel d modelIndex) model))))
  ∧ (∀ model d,
       getFrameAtIndex a_data modelIndex = Some model →
       sourceData model = MmcifFormat d →
       (∀ ma, ma ∈ modelsAssembliesOf a_data d →
              toLowerCase (id (assembly ma)) ≠ "1") →
       (StructureFromPetworld_apply a_data modelIndex).1
       = Throw (notDefined "1")).
Proof.
  cbv zeta. split; [|split].
  - unfold StructureFromPetworld_apply.
    by destruct (buildModelsAssembly a_data "1" modelIndex) as [[[s|]|e] t].
  - intros s l desc. unfold StructureFromPetworld_apply.
    destruct (getFrameAtIndex a_data modelIndex) as [model|] eqn:Hm;
      [|by rewrite (buildModelsAssembly_unresolved _ _ _ Hm)].
    destruct (sourceData model) as [d|kind] eqn:Hs;
      [|by rewrite (buildModelsAssembly_other _ _ _ _ _ Hm Hs)].
    rewrite (buildModelsAssembly_mmcif _ _ _ _ _ Hm Hs). unfold assembled.
    destruct (arrayFind _ _) as [ma|] eqn:Hfind; [|done].
    destruct (operatorGroups (assembly ma)) as [groups|e] eqn:Hgroups; [|done].
    destruct (js_index groups modelIndex) as [g|] eqn:Hg; [|done].
    simpl. intros [= <- _ _].
    exists model, d, ma, groups, g. repeat split; try done.
    apply arrayFind_Some in Hfind as [_ Hma].
    unfold matchesName, strict_eq in Hma. by case_bool_decide.
  - intros model d Hm Hs Hno. unfold StructureFromPetworld_apply.
    pose proof (buildModelsAssembly_notDefined _ "1" _ _ _ Hm Hs Hno) as H.
    destruct (buildModelsAssembly a_data "1" modelIndex) as [[[s|]|e] t];
      simpl in *; congruence.
Qed.

(** C10: when the request resolves an mmCIF model, the model is left with
    the label read for the model index; its atomic hierarchy, its source
    data, the other columns of its entity table and its entity index are
    the ones it had; the description column reads as before at every index
    that is not the entity index of one of the model's chains, and reads
    the label at every index that is. *)
Theorem buildModelsAssembly_patch_frame trajectory asmName modelIndex model d :
  getFrameAtIndex trajectory modelIndex = Some model →
  sourceData model = MmcifFormat d →
  let after := (buildModelsAssembly trajectory asmName modelIndex).2 in
  let referenced :=
    getEntityIndex (entities model)
      <$> chains_label_entity_id (atomicHierarchy model) in
  ∃ model',
    getFrameAtIndex after modelIndex = Some model'
    ∧ label model' = modelLabel d modelIndex
    ∧ atomicHierarchy model' = atomicHierarchy model
    ∧ sourceData model' = sourceData model
    ∧ entity_columns (data (entities model'))
      = entity_columns (data (entities model))
    ∧ getEntityIndex (entities model') = getEntityIndex (entities model)
    ∧ (∀ j, j ∉ referenced →
            Column_at (pdbx_description (data (entities model'))) j
            = Column_at (pdbx_description (data (entities model))) j)
    ∧ (∀ j, j ∈ referenced →
            Column_at (pdbx_description (data (entities model'))) j
            = Some [modelLabel d modelIndex]).
Proof.
  intros Hm Hs after referenced.
  exists (patchedModel (modelLabel d modelIndex) model).
  split; [|repeat split].
  - subst after. rewrite (buildModelsAssembly_mmcif _ _ _ _ _ Hm Hs).
    exact (getFrameAtIndex_storeFrame trajectory modelIndex model _ Hm).
  - intros j Hj. unfold Column_at. simpl.
    by apply patchedDescriptions_other.
  - intros j Hj. unfold Column_at. simpl.
    by apply patchedDescriptions_referenced.
Qed.

End Properties.

(** * The claims on the small PetWorld file *)

(** C1 on the scenario of the specification: the second model (index 1)
    has the group of the expression ["2,3"], the model has five chains,
    and the build returns ten units. *)
Lemma scenario_builds_ten_units :
  ∃ s, (buildModelsAssembly (demoTrajectory scenarioData 2) "1" 1).1
       = Return (Some s)
       ∧ length (units s) = 10%nat
       ∧ units s !! 7%nat = Some ("C", 7, "3").
Proof.
  destruct (buildModelsAssembly_unit_count (demoTrajectory scenarioData 2)
              "1" 1 (demoModel (MmcifFormat scenarioData)) scenarioData
              (createModelsAssembly
                 (pdbx_struct_assembly (db scenarioData))
                 (pdbx_struct_assembly_gen (db scenarioData)) 0
                 (getMatrices (pdbx_struct_oper_list (db scenarioData)))
                 (pdbx_struct_assembly_gen_PDB_model_num (frame scenarioData)))
              (demoGroups
                 [{| assemblyId := "1"; expression := "1";
                     asymIds := ["A"; "B"] |};
                  {| assemblyId := "1"; expression := "2,3";
                     asymIds := ["A"; "B"] |}])
              (@Build_OperatorGroup demoTypes ["A"; "B"] ["2"; "3"]) 2 5)
    as (s & Hs & Hlen & Hunits); try reflexivity.
  exists s. split; [exact Hs|]. split; [exact Hlen|].
  exact (Hunits 1%nat 2%nat "3" ("C", 0, "1_555") eq_refl eq_refl).
Defined.

(** C3, the claim as the specification words it, fails: the assembly
    ["2"] has no generator row and is returned all the same, with no model
    numbers. *)
Lemma assembly_without_generators_is_returned :
  ¬ omitsAssembliesWithoutGenerators
      (pdbx_struct_assembly_gen (db twoAssembliesData))
      (assembliesOfTables twoAssembliesData).
Proof.
  intros H.
  refine (H (createModelsAssembly
               (pdbx_struct_assembly (db twoAssembliesData))
               (pdbx_struct_assembly_gen (db twoAssembliesData)) 1
               (getMatrices (pdbx_struct_oper_list (db twoAssembliesData)))
               (pdbx_struct_assembly_gen_PDB_model_num
                  (frame twoAssembliesData))) _ _).
  - unfold assembliesOfTables. rewrite createModelsAssemblies_spec.
    by apply (list_elem_of_lookup_2 _ 1%nat).
  - reflexivity.
Qed.

(** C4, the claim as the specification words it, fails: the trajectory has
    three frames, the matched assembly ["1"] has two operator groups, and
    the build for the third frame (index 2) throws instead of returning an
    empty result. *)
Lemma missing_group_is_not_empty_result :
  (∃ modelsAssembly groups,
     arrayFind
       (modelsAssembliesOf (demoTrajectory scenarioData 3) scenarioData)
       (matchesName "1") = Some modelsAssembly
     ∧ operatorGroups (assembly modelsAssembly) = Return groups
     ∧ js_index groups 2 = None)
  ∧ (buildModelsAssembly (demoTrajectory scenarioData 3) "1" 2).1
    = Throw (TypeError "operators")
  ∧ ¬ returnsEmpty (buildModelsAssembly (demoTrajectory scenarioData 3) "1" 2).1.
Proof.
  split; [|split].
  - do 2 eexists. repeat split.
  - reflexivity.
  - unfold returnsEmpty.
    change (buildModelsAssembly (demoTrajectory scenarioData 3) "1" 2).1
      with (@Throw (option (@Structure demoTypes)) (TypeError "operators")).
    intros [H|(s & H & _)]; discriminate.
Qed.

(** C4 on the same request, through the theorem. *)
Lemma scenario_third_frame_throws :
  (buildModelsAssembly (demoTrajectory scenarioData 3) "1" 2).1
  = Throw (TypeError "operators").
Proof.
  apply (buildModelsAssembly_missing_group_throws
           (demoTrajectory scenarioData 3) "1" 2
           (demoModel (MmcifFormat scenarioData)) scenarioData
           (createModelsAssembly
              (pdbx_struct_assembly (db scenarioData))
              (pdbx_struct_assembly_gen (db scenarioData)) 0
              (getMatrices (pdbx_struct_oper_list (db scenarioData)))
              (pdbx_struct_assembly_gen_PDB_model_num (frame scenarioData)))
           (demoGroups
              [{| assemblyId := "1"; expression := "1";
                  asymIds := ["A"; "B"] |};
               {| assemblyId := "1"; expression := "2,3";
                  asymIds := ["A"; "B"] |}]));
    reflexivity.
Defined.

(** C5 on the scenario: the first request stores the assemblies of the
    tables, and they are still the stored ones after three more requests
    (another frame, an unknown name, a frame that does not exist). *)
Lemma scenario_cache_is_kept :
  __modelsAssemblies
    (buildModelsAssembly (demoTrajectory scenarioData 2) "1" 0).2
  = Some (assembliesOfTables scenarioData)
  ∧ __modelsAssemblies
      (runRequests (buildModelsAssembly (demoTrajectory scenarioData 2) "1" 0).2
         [("1", 1); ("Z", 0); ("1", 5)])
    = Some (assembliesOfTables scenarioData).
Proof.
  destruct (modelsAssemblies_cached_once (demoTrajectory scenarioData 2)
              "1" 0 (demoModel (MmcifFormat scenarioData)) scenarioData
              eq_refl eq_refl eq_refl) as [Hfirst Hlater].
  split; [exact Hfirst|].
  exact (proj1 (Hlater [("1", 1); ("Z", 0); ("1", 5)])).
Defined.

(** C7 on tables without an assembly row. *)
Lemma no_assembly_rows_no_assemblies :
  assembliesOfTables (demoData [] [("1", "1", 10)]) = [].
Proof.
  apply (createModelsAssemblies_no_rows
           (pdbx_struct_assembly (db (demoData [] [("1", "1", 10)])))).
  reflexivity.
Defined.

(** C8 on a trajectory whose frame was read from another format. *)
Lemma other_format_yields_null :
  buildModelsAssembly otherFormatTrajectory "1" 0
  = (Return None, otherFormatTrajectory)
  ∧ StructureFromPetworld_apply otherFormatTrajectory 0
    = (Return Null, otherFormatTrajectory).
Proof.
  apply (buildModelsAssembly_not_mmcif otherFormatTrajectory "1" 0
           (demoModel (OtherFormat "pdb")) "pdb"); reflexivity.
Defined.

(** C10 on the scenario: after the build for the second model the frame
    carries the label, its description column reads the label at the
    entity indices 0 and 1 of its chains (and at -1 nothing is read), and
    reads as before at the index 2, which no chain refers to. *)
Lemma scenario_patch_frame :
  ∃ model',
    getFrameAtIndex (buildModelsAssembly (demoTrajectory scenarioData 2) "1" 1).2 1
    = Some model'
    ∧ label model' = "pet"
    ∧ Column_at (pdbx_description (data (entities model'))) 2 = Some ["entity"]
    ∧ Column_at (pdbx_description (data (entities model'))) 1 = Some ["pet"].
Proof.
  destruct (buildModelsAssembly_patch_frame (demoTrajectory scenarioData 2)
              "1" 1 (demoModel (MmcifFormat scenarioData)) scenarioData
              eq_refl eq_refl)
    as (model' & Hframe & Hlabel & _ & _ & _ & _ & Hother & Hreferenced).
  exists model'. split; [exact Hframe|]. split; [exact Hlabel|]. split.
  - rewrite (Hother 2); [reflexivity|]. by apply (bool_decide_unpack _).
  - apply (Hreferenced 1). by apply (bool_decide_unpack _).
Defined.

(** * Further properties of the code *)

Section FurtherProperties.
Context {T : LibraryTypes} {I : LibraryImports}.

Lemma getFrameAtIndex_is_Some (trajectory : Trajectory) (i : Z) :
  is_Some (getFrameAtIndex trajectory i) ↔ 0 ≤ i < frameCount trajectory.
Proof.
  unfold getFrameAtIndex, js_index, frameCount.
  destruct (i <? 0) eqn:E.
  - apply Z.ltb_lt in E. split; [by intros [? ?]|lia].
  - apply Z.ltb_ge in E. rewrite lookup_lt_is_Some. lia.
Qed.

Lemma patchedDescriptions_twice (label : string) (index : string → Z)
    (entityIds : list string) (array : gmap Z (list string)) :
  patchedDescriptions label index entityIds
    (patchedDescriptions label index entityIds array)
  = patchedDescriptions label index entityIds array.
Proof.
  apply map_eq. intros j.
  destruct (decide (j ∈ index <$> entityIds)) as [Hin|Hout].
  - by rewrite !patchedDescriptions_referenced.
  - by rewrite patchedDescriptions_other.
Qed.

Lemma patchedModel_twice (label' : string) (m : Model) :
  patchedModel label' (patchedModel label' m) = patchedModel label' m.
Proof.
  unfold patchedModel. simpl. by rewrite patchedDescriptions_twice.
Qed.


Lemma assembled_same_assemblies (asmName : string) (modelIndex : Z) (m : Model)
    (c1 : list ModelsAssembly) : ∀ c2 : list ModelsAssembly,
  assembly <$> c1 = assembly <$> c2 →
  assembled c1 asmName modelIndex m = assembled c2 asmName modelIndex m.
Proof.
  unfold assembled.
  induction c1 as [|x c1 IH]; intros [|y c2] H; try done.
  injection H as Hxy H. simpl. unfold matchesName at 1 3.
  rewrite Hxy. destruct (strict_eq _ _); [by rewrite Hxy|]. by apply IH.
Qed.

(** X2: a request for a model index the trajectory has no frame at (a
    negative one, or one from the frame count on) throws, from the build
    and from the transform alike, and leaves the trajectory as it was: no
    model is patched and no models assemblies are stored. *)
Theorem buildModelsAssembly_no_frame trajectory asmName modelIndex :
  modelIndex < 0 ∨ frameCount trajectory ≤ modelIndex →
  buildModelsAssembly trajectory asmName modelIndex
  = (Throw (TypeError "sourceData"), trajectory)
  ∧ StructureFromPetworld_apply trajectory modelIndex
    = (Throw (TypeError "sourceData"), trajectory).
Proof.
  intros Hout.
  assert (Hnone : getFrameAtIndex trajectory modelIndex = None).
  { apply eq_None_not_Some. rewrite getFrameAtIndex_is_Some. lia. }
  split.
  - by apply buildModelsAssembly_unresolved.
  - unfold StructureFromPetworld_apply.
    by rewrite (buildModelsAssembly_unresolved _ _ _ Hnone).
Qed.

(** X3: what a request leaves on the trajectory does not depend on the
    assembly name asked for, hence not on whether the assembly is found:
    for two names the trajectories after the request are the same. *)
Theorem buildModelsAssembly_effects_ignore_name trajectory asmName asmName'
    modelIndex :
  (buildModelsAssembly trajectory asmName modelIndex).2
  = (buildModelsAssembly trajectory asmName' modelIndex).2.
Proof.
  destruct (getFrameAtIndex trajectory modelIndex) as [model|] eqn:Hm.
  - destruct (sourceData model) as [d|kind] eqn:Hs.
    + by rewrite !(buildModelsAssembly_mmcif _ _ _ _ _ Hm Hs).
    + by rewrite !(buildModelsAssembly_other _ _ _ _ _ Hm Hs).
  - by rewrite !(buildModelsAssembly_unresolved _ _ _ Hm).
Qed.

(** X4: a request can be repeated: on the trajectory a request has left, a
    further request for the same model index changes nothing more,
    whatever name it asks for, and the same request has the same
    outcome. *)
Theorem buildModelsAssembly_repeat trajectory asmName modelIndex :
  let after := (buildModelsAssembly trajectory asmName modelIndex).2 in
  (∀ asmName', (buildModelsAssembly after asmName' modelIndex).2 = after)
  ∧ (buildModelsAssembly after asmName modelIndex).1
    = (buildModelsAssembly trajectory asmName modelIndex).1.
Proof.
  cbv zeta.
  destruct (getFrameAtIndex trajectory modelIndex) as [model|] eqn:Hm.
  - destruct (sourceData model) as [d|kind] eqn:Hs.
    + rewrite (buildModelsAssembly_mmcif _ _ _ _ _ Hm Hs). simpl.
      set (m' := patchedModel (modelLabel d modelIndex) model).
      set (mas := modelsAssembliesOf trajectory d).
      set (after := {| frames := <[Z.to_nat modelIndex := m']> (frames trajectory);
                       __modelsAssemblies := Some mas |}).
      assert (Hm' : getFrameAtIndex after modelIndex = Some m')
        by exact (getFrameAtIndex_storeFrame trajectory modelIndex model m' Hm).
      assert (Hs' : sourceData m' = MmcifFormat d) by done.
      split.
      * intros asmName'.
        rewrite (buildModelsAssembly_mmcif _ _ _ _ _ Hm' Hs'). simpl.
        subst m'. rewrite patchedModel_twice.
        by rewrite list_insert_insert_eq.
      * rewrite (buildModelsAssembly_mmcif _ _ _ _ _ Hm' Hs'). simpl.
        subst m'. by rewrite patchedModel_twice.
    + rewrite (buildModelsAssembly_other _ _ _ _ _ Hm Hs). simpl.
      split; [intros asmName'|];
        by rewrite (buildModelsAssembly_other _ _ _ _ _ Hm Hs).
  - rewrite (buildModelsAssembly_unresolved _ _ _ Hm). simpl.
    split; [intros asmName'|];
      by rewrite (buildModelsAssembly_unresolved _ _ _ Hm).
Qed.

(** X5: the transform hands back the null object exactly when the frame at
    the model index exists and was not read from mmCIF; for an mmCIF frame
    it returns a structure object or throws, also when the structure has no
    units. *)
Theorem StructureFromPetworld_Null_iff a_data modelIndex :
  (StructureFromPetworld_apply a_data modelIndex).1 = Return Null
  ↔ ∃ model kind,
      getFrameAtIndex a_data modelIndex = Some model
      ∧ sourceData model = OtherFormat kind.
Proof.
  unfold StructureFromPetworld_apply.
  destruct (getFrameAtIndex a_data modelIndex) as [model|] eqn:Hm.
  - destruct (sourceData model) as [d|kind] eqn:Hs.
    + rewrite (buildModelsAssembly_mmcif _ _ _ _ _ Hm Hs). unfold assembled.
      split.
      * destruct (arrayFind _ _) as [ma|]; [|done].
        destruct (operatorGroups (assembly ma)) as [groups|e]; [|done].
        by destruct (js_index groups modelIndex).
      * intros (model' & kind & [= <-] & Hkind). congruence.
    + rewrite (buildModelsAssembly_other _ _ _ _ _ Hm Hs). simpl.
      split; [|done]. intros _. by exists model, kind.
  - rewrite (buildModelsAssembly_unresolved _ _ _ Hm). simpl.
    split; [done|]. by intros (model & kind & ? & _).
Qed.



(** X7: lowering a lowered string changes nothing; given that, when the id
    of no models assembly equals the request up to the case of the
    letters, the build for an mmCIF frame throws the error that names the
    request as it was given, whatever the case of the request. *)
Theorem buildModelsAssembly_unknown_name trajectory asmName modelIndex model d :
  (∀ s, toLowerCase (toLowerCase s) = toLowerCase s) →
  getFrameAtIndex trajectory modelIndex = Some model →
  sourceData model = MmcifFormat d →
  (∀ ma, ma ∈ modelsAssembliesOf trajectory d →
         matchesCaseInsensitively asmName ma = false) →
  (buildModelsAssembly trajectory asmName modelIndex).1
  = Throw (Error ("Models Assembly '" +:+ asmName +:+ "' is not defined.")).
Proof.
  intros Hidem Hm Hs Hno.
  apply (buildModelsAssembly_notDefined _ _ _ _ _ Hm Hs).
  intros ma Hin Heq. specialize (Hno ma Hin).
  unfold matchesCaseInsensitively, strict_eq in Hno.
  case_bool_decide as Hne; [done|]. destruct Hne.
  by rewrite <- Heq, Hidem.
Qed.

(** X8: the entry the reader returns at a row of the assembly table hands
    the provider of the operator groups the generators of the generator
    rows that name the row's id, in table order, with the matrices of the
    operator table; the generators and the model numbers come from the
    same rows, so there are as many of the ones as of the others, and the
    details are those of the row. *)
Theorem createModelsAssemblies_generators_aligned (sa : StructAssembly)
    (sag : StructAssemblyGen) (ol : StructOperList) (PDB_model_num : CifField)
    (index : nat) (ma : ModelsAssembly) :
  createModelsAssemblies sa sag ol PDB_model_num !! index = Some ma →
  let rows := generatorRows sag (asm_id sa index) in
  operatorsProvider (assembly ma)
  = operatorGroupsProvider (generatorsOfRows sag (asm_id sa index) rows)
      (getMatrices ol)
  ∧ modelNums ma = (λ i, int PDB_model_num (Z.of_nat i)) <$> rows
  ∧ length (generatorsOfRows sag (asm_id sa index) rows)
    = length (modelNums ma)
  ∧ details (assembly ma) = asm_details sa index.
Proof.
  rewrite createModelsAssemblies_spec, list_lookup_fmap.
  intros H rows. destruct (seq 0 (asm_rowCount sa) !! index) as [i|] eqn:Hi;
    [|done].
  apply lookup_seq in Hi as [-> _]. simpl in H. injection H as <-.
  unfold createModelsAssembly. rewrite collectGenerators_spec. simpl.
  repeat split. unfold generatorsOfRows. by rewrite !length_fmap.
Qed.

(** X9: the model numbers kept in [modelNums] play no part in a build: on
    two trajectories with the same frames whose stored models assemblies
    have the same assemblies, a request has the same outcome, whatever
    their model numbers are. *)
Theorem buildModelsAssembly_ignores_modelNums (fs : list Model)
    (c1 c2 : list ModelsAssembly) asmName modelIndex :
  assembly <$> c1 = assembly <$> c2 →
  (buildModelsAssembly {| frames := fs; __modelsAssemblies := Some c1 |}
     asmName modelIndex).1
  = (buildModelsAssembly {| frames := fs; __modelsAssemblies := Some c2 |}
       asmName modelIndex).1.
Proof.
  intros Hsame.
  set (t1 := {| frames := fs; __modelsAssemblies := Some c1 |}).
  set (t2 := {| frames := fs; __modelsAssemblies := Some c2 |}).
  destruct (getFrameAtIndex t1 modelIndex) as [model|] eqn:Hm.
  - assert (Hm2 : getFrameAtIndex t2 modelIndex = Some model) by done.
    destruct (sourceData model) as [d|kind] eqn:Hs.
    + rewrite (buildModelsAssembly_mmcif _ _ _ _ _ Hm Hs).
      rewrite (buildModelsAssembly_mmcif _ _ _ _ _ Hm2 Hs). simpl.
      by apply assembled_same_assemblies.
    + rewrite (buildModelsAssembly_other _ _ _ _ _ Hm Hs).
      by rewrite (buildModelsAssembly_other _ _ _ _ _ Hm2 Hs).
  - assert (Hm2 : getFrameAtIndex t2 modelIndex = None) by done.
    rewrite (buildModelsAssembly_unresolved _ _ _ Hm).
    by rewrite (buildModelsAssembly_unresolved _ _ _ Hm2).
Qed.

Lemma buildModelsAssembly_keeps_frame_data trajectory asmName modelIndex :
  (λ m, (atomicHierarchy m, sourceData m))
    <$> frames (buildModelsAssembly trajectory asmName modelIndex).2
  = (λ m, (atomicHierarchy m, sourceData m)) <$> frames trajectory.
Proof.
  destruct (getFrameAtIndex trajectory modelIndex) as [model|] eqn:Hm.
  - destruct (sourceData model) as [d|kind] eqn:Hs.
    + rewrite (buildModelsAssembly_mmcif _ _ _ _ _ Hm Hs). simpl.
      apply js_index_Some in Hm as [_ Hm].
      rewrite list_fmap_insert. apply list_insert_id.
      by rewrite list_lookup_fmap, Hm.
    + by rewrite (buildModelsAssembly_other _ _ _ _ _ Hm Hs).
  - by rewrite (buildModelsAssembly_unresolved _ _ _ Hm).
Qed.

(** X10: storing the models assemblies does not change an answer when the
    frames carry the same tables: for a frame with the tables [d], the
    request on a trajectory that stores the assemblies of [d] has the
    outcome, and leaves the trajectory, that the request has on the same
    frames with nothing stored. *)
Theorem modelsAssemblies_cache_is_transparent (fs : list Model)
    asmName modelIndex model d :
  js_index fs modelIndex = Some model →
  sourceData model = MmcifFormat d →
  buildModelsAssembly
    {| frames := fs; __modelsAssemblies := Some (assembliesOfTables d) |}
    asmName modelIndex
  = buildModelsAssembly {| frames := fs; __modelsAssemblies := None |}
      asmName modelIndex.
Proof.
  intros Hm Hs.
  rewrite (buildModelsAssembly_mmcif
             {| frames := fs; __modelsAssemblies := Some (assembliesOfTables d) |}
             _ _ _ _ Hm Hs).
  by rewrite (buildModelsAssembly_mmcif
                {| frames := fs; __modelsAssemblies := None |} _ _ _ _ Hm Hs).
Qed.

(** X11: however many requests are made, for whatever names and model
    indices and whether they succeed or throw, the trajectory keeps its
    frames in number and in place, and every frame keeps its atomic
    hierarchy and its source data. *)
Theorem runRequests_keeps_frame_data trajectory
    (requests : list (string * Z)) :
  frameCount (runRequests trajectory requests) = frameCount trajectory
  ∧ (λ m, (atomicHierarchy m, sourceData m))
      <$> frames (runRequests trajectory requests)
    = (λ m, (atomicHierarchy m, sourceData m)) <$> frames trajectory.
Proof.
  assert (H : (λ m, (atomicHierarchy m, sourceData m))
                <$> frames (runRequests trajectory requests)
              = (λ m, (atomicHierarchy m, sourceData m)) <$> frames trajectory).
  { revert trajectory.
    induction requests as [|[asmName modelIndex] requests IH];
      intros trajectory; [done|].
    simpl. rewrite IH. apply buildModelsAssembly_keeps_frame_data. }
  split; [|done]. unfold frameCount. f_equal.
  apply (f_equal length) in H. by rewrite !length_fmap in H.
Qed.

End FurtherProperties.

(** * The further properties on the small PetWorld file *)

(** X2 on the scenario: the trajectory has two frames, and the request for
    the index 2 throws and leaves it as it was. *)
Lemma scenario_no_third_frame :
  buildModelsAssembly (demoTrajectory scenarioData 2) "1" 2
  = (Throw (TypeError "sourceData"), demoTrajectory scenarioData 2)
  ∧ StructureFromPetworld_apply (demoTrajectory scenarioData 2) (-1)
    = (Throw (TypeError "sourceData"), demoTrajectory scenarioData 2).
Proof.
  split.
  - apply (buildModelsAssembly_no_frame (demoTrajectory scenarioData 2) "1" 2).
    right. vm_compute. discriminate.
  - apply (buildModelsAssembly_no_frame (demoTrajectory scenarioData 2) "1" (-1)).
    left. reflexivity.
Defined.


(** X7 on the scenario: the request ["Z"], with the only assembly ["1"]. *)
Lemma scenario_unknown_assembly :
  (buildModelsAssembly (demoTrajectory scenarioData 2) "Z" 0).1
  = Throw (Error "Models Assembly 'Z' is not defined.").
Proof.
  apply (@buildModelsAssembly_unknown_name demoTypes demoImports
           (demoTrajectory scenarioData 2) "Z" 0 (demoModel (MmcifFormat scenarioData)) scenarioData
           asciiLowerCase_idempotent eq_refl eq_refl).
  intros ma Hin.
  apply list_elem_of_lookup in Hin as [[|[|n]] Hn]; [|discriminate..].
  injection Hn as <-. reflexivity.
Defined.

(** X8 on the scenario: the entry of the assembly ["1"] has the two
    generators of its rows and the two model numbers 10 and 11. *)
Lemma scenario_generators_aligned :
  ∃ ma,
    assembliesOfTables scenarioData !! 0%nat = Some ma
    ∧ modelNums ma = [10; 11]
    ∧ operatorsProvider (assembly ma)
      = operatorGroupsProvider
          [{| assemblyId := "1"; expression := "1"; asymIds := ["A"; "B"] |};
           {| assemblyId := "1"; expression := "2,3"; asymIds := ["A"; "B"] |}]
          (getMatrices (pdbx_struct_oper_list (db scenarioData))).
Proof.
  eexists. split; [reflexivity|].
  destruct (createModelsAssemblies_generators_aligned
              (pdbx_struct_assembly (db scenarioData))
              (pdbx_struct_assembly_gen (db scenarioData))
              (pdbx_struct_oper_list (db scenarioData))
              (pdbx_struct_assembly_gen_PDB_model_num (frame scenarioData))
              0 _ eq_refl) as (Hprovider & Hnums & _ & _).
  split; [exact Hnums | exact Hprovider].
Defined.

(** X9 on the scenario: with the model numbers of the stored entries
    dropped, the request for the second model builds the same ten
    units. *)
Lemma scenario_without_modelNums :
  (buildModelsAssembly
     {| frames := frames (demoTrajectory scenarioData 2);
        __modelsAssemblies := Some (assembliesOfTables scenarioData) |} "1" 1).1
  = (buildModelsAssembly
       {| frames := frames (demoTrajectory scenarioData 2);
          __modelsAssemblies :=
            Some ((λ ma, {| assembly := assembly ma; modelNums := [] |})
                    <$> assembliesOfTables scenarioData) |} "1" 1).1.
Proof.
  apply (buildModelsAssembly_ignores_modelNums
           (frames (demoTrajectory scenarioData 2))
           (assembliesOfTables scenarioData)
           ((λ ma, {| assembly := assembly ma; modelNums := [] |})
              <$> assembliesOfTables scenarioData) "1" 1).
  reflexivity.
Defined.

(** X10 on the scenario: the second model, with the assemblies stored and
    without. *)
Lemma scenario_cache_is_transparent :
  buildModelsAssembly
    {| frames := frames (demoTrajectory scenarioData 2);
       __modelsAssemblies := Some (assembliesOfTables scenarioData) |} "1" 1
  = buildModelsAssembly (demoTrajectory scenarioData 2) "1" 1.
Proof.
  exact (modelsAssemblies_cache_is_transparent
           (frames (demoTrajectory scenarioData 2)) "1" 1
           (demoModel (MmcifFormat scenarioData)) scenarioData
           eq_refl eq_refl).
Defined.
